(** * Field validators of [server/models.py]

    A shallow embedding of the two SQLAlchemy models [Author] and [Post]
    and of the six [@validates] methods they carry, followed by the
    properties of these validators.

    Conventions of the embedding.

    - A Python [str] is a Rocq [string] whose characters are read as the
      code points U+0000 .. U+00FF (one [ascii] per code point, so [len] is
      [String.length]).  String literals of this file are plain ASCII.
    - The value handed to a validator of a [db.String] column is [None] or
      a [str]: type [pyval].
    - [raise ValueError(msg)] is [Raise (ValueError msg)]; the built-ins
      applied to [None] raise [TypeError] as Python does.
    - The validators are methods of [db.Model] classes and may talk to the
      session: they live in the monad [DB], which threads the storage and
      records every call made to it. *)

From Stdlib Require Import Bool Arith Lia List String Ascii.
From Stdlib Require Import Decimal DecimalString DecimalNat.
Import ListNotations.
Open Scope string_scope.
Open Scope list_scope.
Open Scope nat_scope.

(** ** Python values and exceptions *)

Inductive pyval : Type :=
| PyNone
| PyStr (s : string).

Definition is_None (v : pyval) : bool :=
  match v with PyNone => true | PyStr _ => false end.

Definition pyval_eqb (a b : pyval) : bool :=
  match a, b with
  | PyNone, PyNone => true
  | PyStr s, PyStr t => String.eqb s t
  | _, _ => false
  end.

Record exn : Type := Exn { exc_class : string; exc_msg : string }.

Definition ValueError (msg : string) : exn := Exn "ValueError" msg.
Definition TypeError (msg : string) : exn := Exn "TypeError" msg.

Inductive result (A : Type) : Type :=
| Return (a : A)
| Raise (e : exn).
Arguments Return {A} a.
Arguments Raise {A} e.

(** ** Characters and the [str] methods the validators call *)

Definition ord (c : ascii) : nat := nat_of_ascii c.

(** [str.isspace] on one character: TAB..CR, FS..US, SPACE, NEL, NBSP. *)
Definition isspace_char (c : ascii) : bool :=
  let n := ord c in
  ((9 <=? n) && (n <=? 13)) || ((28 <=? n) && (n <=? 32))
  || (n =? 133) || (n =? 160).

(** The characters [0] .. [9]. *)
Definition is_ascii_digit (c : ascii) : bool :=
  let n := ord c in (48 <=? n) && (n <=? 57).

(** [str.isdigit] on one character: Unicode Numeric_Type Decimal or Digit,
    which below U+0100 is [0]..[9] and the superscripts U+00B2, U+00B3 and
    U+00B9. *)
Definition isdigit_char (c : ascii) : bool :=
  let n := ord c in
  is_ascii_digit c || (n =? 178) || (n =? 179) || (n =? 185).

Fixpoint forall_chars (p : ascii -> bool) (s : string) : bool :=
  match s with
  | EmptyString => true
  | String c t => p c && forall_chars p t
  end.

(** [s.isdigit()]: at least one character, and all of them digits. *)
Definition isdigit (s : string) : bool :=
  match s with
  | EmptyString => false
  | _ => forall_chars isdigit_char s
  end.

Fixpoint lstrip (s : string) : string :=
  match s with
  | EmptyString => EmptyString
  | String c t => if isspace_char c then lstrip t else s
  end.

Fixpoint rstrip (s : string) : string :=
  match s with
  | EmptyString => EmptyString
  | String c t =>
      match rstrip t with
      | EmptyString => if isspace_char c then EmptyString else String c EmptyString
      | r => String c r
      end
  end.

(** [s.strip()] *)
Definition strip (s : string) : string := rstrip (lstrip s).

(** [sub in s] for two strings: [sub] starts at some position of [s]. *)
Fixpoint str_contains (sub s : string) : bool :=
  match s with
  | EmptyString => String.prefix sub EmptyString
  | String _ t => String.prefix sub s || str_contains sub t
  end.

(** [str(value)] *)
Definition py_str (v : pyval) : string :=
  match v with
  | PyNone => "None"
  | PyStr s => s
  end.

(** [len(value)] *)
Definition py_len (v : pyval) : result nat :=
  match v with
  | PyNone => Raise (TypeError "object of type 'NoneType' has no len()")
  | PyStr s => Return (String.length s)
  end.

(** [sub in value] *)
Definition py_in_str (sub : string) (v : pyval) : result bool :=
  match v with
  | PyNone => Raise (TypeError "argument of type 'NoneType' is not iterable")
  | PyStr s => Return (str_contains sub s)
  end.

(** [value in items] for a list of strings: membership by [==]. *)
Definition py_in_list (v : pyval) (items : list string) : bool :=
  existsb (fun item => pyval_eqb v (PyStr item)) items.

(** ** Storage *)

(** A row of the [authors] table (the timestamps, which no validator
    reads, are left out). *)
Record Author : Type := mkAuthor {
  id : nat;
  name : string;
  phone_number : option string
}.

Record storage : Type := mkStorage {
  table_names : list string;
  author_rows : list Author
}.

(** The calls a validator makes to the session and its inspector. *)
Inductive db_call : Type :=
| GetTableNames
| QueryAuthorByName (value : pyval).

Record run (A : Type) : Type := Run {
  outcome : result A;
  final : storage;
  calls : list db_call
}.
Arguments Run {A} outcome final calls.
Arguments outcome {A} r.
Arguments final {A} r.
Arguments calls {A} r.

Definition DB (A : Type) : Type := storage -> run A.

Definition ret {A : Type} (a : A) : DB A := fun st => Run (Return a) st [].

Definition raise {A : Type} (e : exn) : DB A := fun st => Run (Raise e) st [].

Definition bind {A B : Type} (m : DB A) (k : A -> DB B) : DB B :=
  fun st =>
    match m st with
    | Run (Return a) st1 l1 =>
        match k a st1 with
        | Run r st2 l2 => Run r st2 (l1 ++ l2)
        end
    | Run (Raise e) st1 l1 => Run (Raise e) st1 l1
    end.

Notation "x <- m ;; k" := (bind m (fun x => k))
  (at level 61, m at next level, right associativity).
Notation "m ;;; k" := (bind m (fun _ => k))
  (at level 61, right associativity).

Definition lift {A : Type} (r : result A) : DB A :=
  fun st => Run r st [].

(** [inspect(db.session.get_bind()).get_table_names()] *)
Definition get_table_names : DB (list string) :=
  fun st => Run (Return (table_names st)) st [GetTableNames].

(** [Author.name == value]: a comparison with [None] is rendered
    [IS NULL], which no row of the non-nullable column satisfies. *)
Definition name_equals (value : pyval) (a : Author) : bool :=
  match value with
  | PyNone => false
  | PyStr s => String.eqb (name a) s
  end.

(** [Author.query.filter(Author.name == value).first()]: the SELECT and
    its first row.  The flush the session makes of its pending objects
    before a query is not part of this model; [author_rows] are the rows
    the SELECT reads, and nothing is stated below about the storage a run
    of [validate_name] leaves. *)
Definition query_author_by_name (value : pyval) : DB (option Author) :=
  fun st =>
    Run (Return (find (name_equals value) (author_rows st))) st
        [QueryAuthorByName value].

(** ** Module constants *)

Definition CLICKBAIT_PHRASES : list string :=
  ["Won't Believe"; "Secret"; "Top"; "Guess"].

Definition ALLOWED_CATEGORIES : list string :=
  ["Fiction"; "Non-Fiction"].

(** ** [class Author] *)

Definition validate_name (value : pyval) : DB pyval :=
  if is_None value || String.eqb (strip (py_str value)) "" then
    raise (ValueError "Author must have a name.")
  else
    tables <- get_table_names ;;
    (if existsb (String.eqb "authors") tables then
       existing <- query_author_by_name value ;;
       match existing with
       | Some _ => raise (ValueError "Author name must be unique.")
       | None => ret tt
       end
     else ret tt) ;;;
    ret value.

Definition validate_phone_number (value : pyval) : DB pyval :=
  if is_None value then ret value
  else
    let value_str := py_str value in
    if negb (String.length value_str =? 10) then
      raise (ValueError "Phone number must be exactly 10 digits.")
    else if negb (isdigit value_str) then
      raise (ValueError "Phone number must contain digits only.")
    else ret (PyStr value_str).

(** ** [class Post] *)

(** [any(phrase in value for phrase in phrases)]: the generator is consumed
    up to the first true element. *)
Fixpoint any_phrase_in (phrases : list string) (value : pyval) : result bool :=
  match phrases with
  | [] => Return false
  | phrase :: rest =>
      match py_in_str phrase value with
      | Return true => Return true
      | Return false => any_phrase_in rest value
      | Raise e => Raise e
      end
  end.

Definition validate_title (value : pyval) : DB pyval :=
  if is_None value || String.eqb (strip (py_str value)) "" then
    raise (ValueError "Post must have a title.")
  else
    found <- lift (any_phrase_in CLICKBAIT_PHRASES value) ;;
    if negb found then
      raise (ValueError "Title must contain clickbait keywords.")
    else ret value.

Definition validate_content (value : pyval) : DB pyval :=
  if is_None value then raise (ValueError "Post must have content.")
  else
    n <- lift (py_len value) ;;
    if n <? 250 then
      raise (ValueError "Content must be at least 250 characters.")
    else ret value.

Definition validate_summary (value : pyval) : DB pyval :=
  if is_None value then ret value
  else
    n <- lift (py_len value) ;;
    if 250 <? n then
      raise (ValueError "Summary must be 250 characters or fewer.")
    else ret value.

Definition validate_category (value : pyval) : DB pyval :=
  if negb (py_in_list value ALLOWED_CATEGORIES) then
    raise (ValueError "Category must be Fiction or Non-Fiction.")
  else ret value.

(** ** Error taxonomy

    The source raises one exception class, [ValueError].  The five
    categories below are the names the validation contract gives to the
    rules; a failure belongs to the category of the rule its message
    reports. *)

Inductive error_category : Type :=
| RequiredFieldError
| FormatError
| LengthError
| ContentPolicyError
| UniquenessError.

(** The message of every [raise] statement of the module, in source order,
    with the category of the rule it reports. *)
Definition ERROR_MESSAGES : list (string * error_category) :=
  [ ("Author must have a name.", RequiredFieldError);
    ("Author name must be unique.", UniquenessError);
    ("Phone number must be exactly 10 digits.", FormatError);
    ("Phone number must contain digits only.", FormatError);
    ("Post must have a title.", RequiredFieldError);
    ("Title must contain clickbait keywords.", ContentPolicyError);
    ("Post must have content.", RequiredFieldError);
    ("Content must be at least 250 characters.", LengthError);
    ("Summary must be 250 characters or fewer.", LengthError);
    ("Category must be Fiction or Non-Fiction.", ContentPolicyError) ].

Definition category_of_message (msg : string) : option error_category :=
  option_map snd (find (fun entry => String.eqb (fst entry) msg) ERROR_MESSAGES).

(** The category of an exception: none unless it is a [ValueError] carrying
    one of the module's messages. *)
Definition category (e : exn) : option error_category :=
  if String.eqb (exc_class e) "ValueError" then category_of_message (exc_msg e)
  else None.

Definition raises {A : Type} (c : error_category) (r : run A) : Prop :=
  exists e, outcome r = Raise e /\ category e = Some c.

Definition returns {A : Type} (a : A) (r : run A) : Prop :=
  outcome r = Return a.

(** The six validators, by the column each is attached to. *)
Inductive validator : Type :=
| AuthorName
| AuthorPhoneNumber
| PostTitle
| PostContent
| PostSummary
| PostCategory.

Definition validate (f : validator) : pyval -> DB pyval :=
  match f with
  | AuthorName => validate_name
  | AuthorPhoneNumber => validate_phone_number
  | PostTitle => validate_title
  | PostContent => validate_content
  | PostSummary => validate_summary
  | PostCategory => validate_category
  end.

(** Storage samples used by the examples. *)
Definition empty_db : storage := mkStorage ["authors"; "posts"] [].
Definition ann : Author := mkAuthor 1 "Ann" None.
Definition db_with_ann : storage := mkStorage ["authors"; "posts"] [ann].
(** The same row while the inspector lists no table. *)
Definition db_without_tables : storage := mkStorage [] [ann].

(** A stored Author whose name is a single space. *)
Definition blank_author : Author := mkAuthor 1 " " None.
Definition db_with_blank_author : storage := mkStorage ["authors"] [blank_author].

(** [c * n] for a one-character string [c]. *)
Fixpoint replicate (n : nat) (c : ascii) : string :=
  match n with
  | 0 => EmptyString
  | S k => String c (replicate k c)
  end.

Definition superscript_two : ascii := ascii_of_nat 178.

(** ** Notions used in the statements *)

(** The value is [None] or a string that [strip] empties. *)
Definition null_or_blank (v : pyval) : Prop :=
  match v with
  | PyNone => True
  | PyStr s => strip s = ""
  end.

(** [sub] occurs in [s], character for character. *)
Definition substring_of (sub s : string) : Prop :=
  exists before after, s = (before ++ sub ++ after)%string.

(** Some row of the [authors] table carries the name [v]. *)
Definition author_named (v : pyval) (st : storage) : Prop :=
  exists a, In a (author_rows st) /\ PyStr (name a) = v.

Definition table_exists (t : string) (st : storage) : Prop :=
  In t (table_names st).

(** Only code points below U+0080. *)
Definition is_ascii (s : string) : bool :=
  forall_chars (fun c => ord c <? 128) s.

(** ** [__repr__]

    The two [__repr__] methods format a stored object with an f-string;
    a replacement field [{x}] inserts [str(x)]. *)

(** A row of the [posts] table: [title] is the one non-nullable column
    (the timestamps are left out; [id] and [category] carry a prefix, the
    plain names being taken). *)
Record Post : Type := mkPost {
  post_id : nat;
  title : string;
  content : pyval;
  post_category : pyval;
  summary : pyval
}.

(** [str(n)] for the integer key of a stored row. *)
Definition py_str_int (n : nat) : string :=
  NilEmpty.string_of_uint (Nat.to_uint n).

(** [Author.__repr__] *)
Definition Author_repr (self : Author) : string :=
  ("Author(id=" ++ py_str_int (id self) ++ ", name=" ++ name self ++ ")")%string.

(** [Post.__repr__] *)
Definition Post_repr (self : Post) : string :=
  ("Post(id=" ++ py_str_int (post_id self) ++ ", title=" ++ title self
   ++ " content=" ++ py_str (content self)
   ++ ", summary=" ++ py_str (summary self) ++ ")")%string.

(** * Properties *)

(** ** Strings *)

Lemma lstrip_shape (s : string) :
  lstrip s = "" \/ exists c t, lstrip s = String c t /\ isspace_char c = false.
Proof.
  induction s as [|c t IH]; simpl; [now left|].
  destruct (isspace_char c) eqn:E; [exact IH|].
  right; exists c, t; now split.
Qed.

Lemma lstrip_empty (s : string) :
  lstrip s = "" <-> forall_chars isspace_char s = true.
Proof.
  induction s as [|c t IH]; simpl; [tauto|].
  destruct (isspace_char c); simpl; [exact IH|].
  split; discriminate.
Qed.

Lemma rstrip_empty (s : string) :
  rstrip s = "" <-> forall_chars isspace_char s = true.
Proof.
  induction s as [|c t IH]; simpl; [tauto|].
  destruct (rstrip t) eqn:R.
  - destruct (isspace_char c); simpl.
    + split; intros _; [now apply IH | reflexivity].
    + split; discriminate.
  - split; [discriminate|].
    intros H. apply andb_true_iff in H. destruct H as [_ H].
    apply IH in H. discriminate.
Qed.

(** [strip] empties exactly the strings made of whitespace only. *)
Lemma strip_empty (s : string) :
  strip s = "" <-> forall_chars isspace_char s = true.
Proof.
  unfold strip. split.
  - intros H. apply rstrip_empty in H.
    destruct (lstrip_shape s) as [E | (c & t & E & Hc)].
    + now apply lstrip_empty.
    + rewrite E in H. simpl in H. rewrite Hc in H. discriminate.
  - intros H. apply lstrip_empty in H. now rewrite H.
Qed.

Lemma prefix_append (p s : string) :
  String.prefix p s = true <-> exists r, s = (p ++ r)%string.
Proof.
  revert s. induction p as [|a p IH]; intros s.
  - split; [intros _; now exists s | now destruct s].
  - destruct s as [|b s]; simpl.
    + split; [discriminate | intros [r H]; discriminate].
    + destruct (ascii_dec a b) as [E|N].
      * subst b. split.
        -- intros H. apply IH in H. destruct H as [r H]. exists r. now rewrite H.
        -- intros [r H]. apply IH. exists r. now injection H.
      * split; [discriminate|].
        intros [r H]. injection H as H1 _. congruence.
Qed.

(** Python's [sub in s] is the substring relation. *)
Lemma str_contains_spec (sub s : string) :
  str_contains sub s = true <-> substring_of sub s.
Proof.
  unfold substring_of. induction s as [|c t IH].
  - cbn [str_contains]. rewrite prefix_append. split.
    + intros [r H]. exists "", r. exact H.
    + intros (a & b & H). destruct a; simpl in H.
      * now exists b.
      * discriminate.
  - cbn [str_contains]. rewrite orb_true_iff, prefix_append, IH. split.
    + intros [[r H] | (a & b & H)].
      * exists "", r. exact H.
      * exists (String c a), b. simpl. now rewrite H.
    + intros (a & b & H). destruct a as [|c' a]; simpl in H.
      * left. now exists b.
      * right. injection H as _ H. now exists a, b.
Qed.

Lemma replicate_length (n : nat) (c : ascii) :
  String.length (replicate n c) = n.
Proof. induction n; simpl; congruence. Qed.

Lemma existsb_eqb_In (t : string) (l : list string) :
  existsb (String.eqb t) l = true <-> In t l.
Proof.
  rewrite existsb_exists. split.
  - intros (x & Hx & E). apply String.eqb_eq in E. now subst.
  - intros H. exists t. split; [exact H | apply String.eqb_refl].
Qed.

Lemma find_name_equals (v : pyval) (rows : list Author) :
  (exists a, find (name_equals v) rows = Some a) <->
  exists a, In a rows /\ PyStr (name a) = v.
Proof.
  split.
  - intros [a H]. apply find_some in H. destruct H as [Hin Heq].
    exists a. split; [exact Hin|].
    destruct v as [|s]; simpl in Heq; [discriminate|].
    apply String.eqb_eq in Heq. now rewrite Heq.
  - intros (a & Hin & Heq).
    destruct (find (name_equals v) rows) as [b|] eqn:F; [now exists b|].
    exfalso. apply (find_none _ _ F) in Hin.
    subst v. simpl in Hin. rewrite String.eqb_refl in Hin. discriminate.
Qed.

(** ** Outcomes *)

Lemma raises_Raise {A : Type} (c : error_category) (e : exn) st l :
  raises c (@Run A (Raise e) st l) <-> category e = Some c.
Proof.
  unfold raises; simpl. split.
  - intros (e' & H & Hc). now injection H as ->.
  - intros H. now exists e.
Qed.

Lemma raises_Return {A : Type} (c : error_category) (a : A) st l :
  ~ raises c (Run (Return a) st l).
Proof. intros (e & H & _). discriminate. Qed.

(** Closes a goal about a validator run on literal arguments. *)
Ltac by_evaluation :=
  first [ reflexivity | eexists; split; reflexivity ].

Lemma null_or_blank_dec (v : pyval) :
  is_None v || String.eqb (strip (py_str v)) "" = true <-> null_or_blank v.
Proof.
  destruct v as [|s]; simpl; [tauto|]. apply String.eqb_eq.
Qed.

Lemma not_null_or_blank (v : pyval) :
  ~ null_or_blank v ->
  is_None v || String.eqb (strip (py_str v)) "" = false.
Proof.
  intros H. apply not_true_is_false. now rewrite null_or_blank_dec.
Qed.

(** ** [Author.validate_name] *)

Lemma validate_name_blank (v : pyval) (st : storage) :
  null_or_blank v ->
  validate_name v st = Run (Raise (ValueError "Author must have a name.")) st [].
Proof.
  intros H. apply null_or_blank_dec in H.
  unfold validate_name. now rewrite H.
Qed.

Lemma validate_name_checked (v : pyval) (st : storage) :
  ~ null_or_blank v ->
  validate_name v st =
    if existsb (String.eqb "authors") (table_names st) then
      match find (name_equals v) (author_rows st) with
      | Some _ =>
          Run (Raise (ValueError "Author name must be unique.")) st
              [GetTableNames; QueryAuthorByName v]
      | None => Run (Return v) st [GetTableNames; QueryAuthorByName v]
      end
    else Run (Return v) st [GetTableNames].
Proof.
  intros H. apply not_null_or_blank in H.
  unfold validate_name. rewrite H.
  unfold bind, get_table_names, query_author_by_name, ret, raise.
  destruct (existsb _ (table_names st)); [|reflexivity].
  now destruct (find _ (author_rows st)).
Qed.

(** When the uniqueness error is raised. *)
Lemma validate_name_raises_unique (v : pyval) (st : storage) :
  raises UniquenessError (validate_name v st) <->
  ~ null_or_blank v /\ table_exists "authors" st /\ author_named v st.
Proof.
  unfold table_exists, author_named.
  destruct (null_or_blank_dec v) as [D1 D2].
  destruct (is_None v || String.eqb (strip (py_str v)) "") eqn:B.
  - rewrite (validate_name_blank v st (D1 eq_refl)), raises_Raise.
    split; [discriminate|]. intros [N _]. elim N. now apply D1.
  - assert (Hv : ~ null_or_blank v).
    { intros H. apply D2 in H. discriminate. }
    rewrite (validate_name_checked v st Hv).
    rewrite <- existsb_eqb_In, <- find_name_equals.
    destruct (existsb _ (table_names st)).
    + destruct (find _ (author_rows st)) as [a|].
      * rewrite raises_Raise. split; [intros _|reflexivity].
        split; [exact Hv|]. split; [reflexivity | now exists a].
      * split; [intros H; now apply raises_Return in H|].
        intros (_ & _ & a & H). discriminate.
    + split; [intros H; now apply raises_Return in H|].
      intros (_ & H & _). discriminate.
Qed.

(** C1, as the code has it.  [validate_name] raises the uniqueness error
    exactly when the value passes the required check, the [authors] table
    exists and some stored Author carries that name.  When the table does
    not exist, no value raises the uniqueness error whatever rows the
    storage holds, and no query by name is issued at all. *)
Theorem validate_name_uniqueness (v : pyval) (st : storage) :
  (raises UniquenessError (validate_name v st) <->
   ~ null_or_blank v /\ table_exists "authors" st /\ author_named v st) /\
  (~ table_exists "authors" st ->
   ~ raises UniquenessError (validate_name v st) /\
   forall q, ~ In (QueryAuthorByName q) (calls (validate_name v st))).
Proof.
  split; [apply validate_name_raises_unique|].
  intros Ht. split.
  - rewrite validate_name_raises_unique. tauto.
  - unfold table_exists in Ht.
    rewrite <- existsb_eqb_In in Ht. apply not_true_is_false in Ht.
    destruct (null_or_blank_dec v) as [D1 D2].
    destruct (is_None v || String.eqb (strip (py_str v)) "") eqn:B.
    + rewrite (validate_name_blank v st (D1 eq_refl)). intros q [].
    + assert (Hv : ~ null_or_blank v).
      { intros H. apply D2 in H. discriminate. }
      rewrite (validate_name_checked v st Hv), Ht.
      intros q [H|[]]. discriminate.
Qed.

Lemma validate_name_uniqueness_witness :
  ~ raises UniquenessError (validate_name (PyStr "Ann") db_without_tables) /\
  forall q, ~ In (QueryAuthorByName q)
                 (calls (validate_name (PyStr "Ann") db_without_tables)).
Proof.
  apply (proj2 (validate_name_uniqueness (PyStr "Ann") db_without_tables)).
  simpl. tauto.
Defined.

(** C1 as worded fails on a blank name: the table exists and the lookup
    would find the stored Author, yet the required check fires first. *)
Lemma uniqueness_not_exact_on_blank_names :
  ~ (forall v st,
       raises UniquenessError (validate_name v st) <->
       table_exists "authors" st /\ author_named v st).
Proof.
  intros H.
  destruct (H (PyStr " ") db_with_blank_author) as [_ H2].
  assert (R : raises UniquenessError (validate_name (PyStr " ") db_with_blank_author)).
  { apply H2. split.
    - now left.
    - exists blank_author. split; [now left | reflexivity]. }
  destruct R as (e & He & Hc).
  vm_compute in He. injection He as <-.
  vm_compute in Hc. discriminate.
Qed.

(** C2.  [validate_name] raises the required-field error exactly for
    [None] and for the strings that [strip] empties; a value that is
    neither, and that no stored Author carries, comes back unchanged. *)
Theorem validate_name_required (v : pyval) (st : storage) :
  (raises RequiredFieldError (validate_name v st) <-> null_or_blank v) /\
  (~ null_or_blank v -> ~ author_named v st ->
   returns v (validate_name v st)).
Proof.
  split.
  - split.
    + intros R. destruct (null_or_blank_dec v) as [D _].
      destruct (is_None v || String.eqb (strip (py_str v)) "") eqn:B;
        [now apply D|].
      exfalso. revert R.
      assert (Hv : ~ null_or_blank v).
      { intros H. apply null_or_blank_dec in H. congruence. }
      rewrite (validate_name_checked v st Hv).
      destruct (existsb _ (table_names st)); [|apply raises_Return].
      destruct (find _ (author_rows st));
        [rewrite raises_Raise; discriminate | apply raises_Return].
    + intros H. rewrite (validate_name_blank v st H).
      now apply raises_Raise.
  - intros Hv Hu. rewrite (validate_name_checked v st Hv). unfold returns.
    destruct (existsb _ (table_names st)); [|reflexivity].
    destruct (find _ (author_rows st)) as [a|] eqn:F; [|reflexivity].
    exfalso. apply Hu. apply find_name_equals. now exists a.
Qed.

Lemma validate_name_required_witness :
  returns (PyStr "Bob") (validate_name (PyStr "Bob") db_with_ann).
Proof.
  apply (proj2 (validate_name_required (PyStr "Bob") db_with_ann)).
  - simpl. discriminate.
  - intros (a & [<-|[]] & H). discriminate.
Defined.

(** ** [Author.validate_phone_number] *)

Lemma validate_phone_number_run (v : pyval) (st : storage) :
  validate_phone_number v st =
    match v with
    | PyNone => Run (Return PyNone) st []
    | PyStr s =>
        if String.length s =? 10 then
          if forall_chars isdigit_char s then Run (Return (PyStr s)) st []
          else Run (Raise (ValueError "Phone number must contain digits only.")) st []
        else Run (Raise (ValueError "Phone number must be exactly 10 digits.")) st []
    end.
Proof.
  destruct v as [|s]; [reflexivity|].
  unfold validate_phone_number, raise, ret. simpl.
  destruct (String.length s =? 10) eqn:L; simpl; [|reflexivity].
  destruct s as [|c t]; [discriminate|].
  unfold isdigit. now destruct (forall_chars isdigit_char (String c t)).
Qed.

(** What the code decides: [None] passes through; a string is returned
    when it has ten characters that all satisfy [str.isdigit], and is
    rejected with a format error otherwise. *)
Lemma validate_phone_number_decides (st : storage) :
  returns PyNone (validate_phone_number PyNone st) /\
  forall s,
    (String.length s = 10 /\ forall_chars isdigit_char s = true ->
     returns (PyStr s) (validate_phone_number (PyStr s) st)) /\
    (~ (String.length s = 10 /\ forall_chars isdigit_char s = true) ->
     raises FormatError (validate_phone_number (PyStr s) st)).
Proof.
  split; [reflexivity|]. intros s.
  rewrite validate_phone_number_run. unfold returns. split.
  - intros [L D]. apply Nat.eqb_eq in L. now rewrite L, D.
  - intros N. destruct (String.length s =? 10) eqn:L.
    + destruct (forall_chars isdigit_char s) eqn:D.
      * exfalso. apply N. apply Nat.eqb_eq in L. now split.
      * now apply raises_Raise.
    + now apply raises_Raise.
Qed.

Lemma isdigit_char_ascii (c : ascii) :
  (ord c <? 128) = true -> isdigit_char c = is_ascii_digit c.
Proof.
  unfold isdigit_char. intros H. apply Nat.ltb_lt in H.
  destruct (ord c =? 178) eqn:E1; [apply Nat.eqb_eq in E1; lia|].
  destruct (ord c =? 179) eqn:E2; [apply Nat.eqb_eq in E2; lia|].
  destruct (ord c =? 185) eqn:E3; [apply Nat.eqb_eq in E3; lia|].
  now rewrite !orb_false_r.
Qed.

Lemma forall_isdigit_ascii (s : string) :
  is_ascii s = true ->
  forall_chars isdigit_char s = forall_chars is_ascii_digit s.
Proof.
  unfold is_ascii. induction s as [|c t IH]; simpl; [reflexivity|].
  intros H. apply andb_true_iff in H. destruct H as [Hc Ht].
  now rewrite (isdigit_char_ascii c Hc), (IH Ht).
Qed.

(** On ASCII text the rule is the one C3 words: ten characters, each of
    them one of [0] .. [9]. *)
Lemma validate_phone_number_ascii (s : string) (st : storage) :
  is_ascii s = true ->
  (String.length s = 10 /\ forall_chars is_ascii_digit s = true ->
   returns (PyStr s) (validate_phone_number (PyStr s) st)) /\
  (~ (String.length s = 10 /\ forall_chars is_ascii_digit s = true) ->
   raises FormatError (validate_phone_number (PyStr s) st)).
Proof.
  intros A. rewrite <- (forall_isdigit_ascii s A).
  apply (proj2 (validate_phone_number_decides st) s).
Qed.

(** C3 at the input made of ten SUPERSCRIPT TWO characters (U+00B2): the
    string has ten characters, not one of them is a decimal digit, and
    the validator returns it instead of raising the format error; the
    ASCII examples of the claim behave as it says. *)
Theorem validate_phone_number_superscripts (st : storage) :
  let s := replicate 10 superscript_two in
  String.length s = 10 /\
  forall_chars (fun c => negb (is_ascii_digit c)) s = true /\
  validate_phone_number (PyStr s) st = Run (Return (PyStr s)) st [] /\
  returns (PyStr "5551234567") (validate_phone_number (PyStr "5551234567") st) /\
  raises FormatError (validate_phone_number (PyStr "555123456") st) /\
  raises FormatError (validate_phone_number (PyStr "555123456a") st) /\
  returns PyNone (validate_phone_number PyNone st).
Proof. repeat split; by_evaluation. Qed.

(** ** [Post.validate_title] *)

Lemma any_phrase_in_str (phrases : list string) (s : string) :
  any_phrase_in phrases (PyStr s) =
  Return (existsb (fun phrase => str_contains phrase s) phrases).
Proof.
  induction phrases as [|p ps IH]; simpl; [reflexivity|].
  destruct (str_contains p s); [reflexivity | exact IH].
Qed.

Lemma validate_title_blank (v : pyval) (st : storage) :
  null_or_blank v ->
  validate_title v st = Run (Raise (ValueError "Post must have a title.")) st [].
Proof.
  intros H. apply null_or_blank_dec in H.
  unfold validate_title. now rewrite H.
Qed.

Lemma validate_title_checked (s : string) (st : storage) :
  ~ null_or_blank (PyStr s) ->
  validate_title (PyStr s) st =
    if existsb (fun phrase => str_contains phrase s) CLICKBAIT_PHRASES then
      Run (Return (PyStr s)) st []
    else Run (Raise (ValueError "Title must contain clickbait keywords.")) st [].
Proof.
  intros H. apply not_null_or_blank in H.
  unfold validate_title. rewrite H, any_phrase_in_str.
  unfold bind, lift, raise, ret.
  now destruct (existsb _ CLICKBAIT_PHRASES).
Qed.

(** C4.  A title that is [None] or blank raises the required-field error;
    any other title is returned when one of the four phrases occurs in it
    character for character, and raises the content-policy error when none
    does.  Matching distinguishes upper and lower case. *)
Theorem validate_title_spec (st : storage) :
  (forall v, null_or_blank v ->
             raises RequiredFieldError (validate_title v st)) /\
  (forall s, ~ null_or_blank (PyStr s) ->
     let clickbait :=
       exists phrase,
         In phrase ["Won't Believe"; "Secret"; "Top"; "Guess"] /\
         substring_of phrase s in
     (clickbait -> returns (PyStr s) (validate_title (PyStr s) st)) /\
     (~ clickbait -> raises ContentPolicyError (validate_title (PyStr s) st))) /\
  returns (PyStr "10 Secret Tips") (validate_title (PyStr "10 Secret Tips") st) /\
  raises ContentPolicyError (validate_title (PyStr "Hello World") st) /\
  raises ContentPolicyError (validate_title (PyStr "10 secret tips") st).
Proof.
  split; [|split; [|repeat split; by_evaluation]].
  - intros v H. rewrite (validate_title_blank v st H). now apply raises_Raise.
  - intros s H clickbait. rewrite (validate_title_checked s st H).
    assert (E : existsb (fun phrase => str_contains phrase s) CLICKBAIT_PHRASES
                = true <-> clickbait).
    { rewrite existsb_exists. unfold clickbait, CLICKBAIT_PHRASES.
      split; intros (p & Hp & Hs); exists p; (split; [exact Hp|]);
        now apply str_contains_spec. }
    destruct (existsb _ CLICKBAIT_PHRASES).
    + split; [reflexivity|]. intros N. exfalso. now apply N, E.
    + split; [|intros _; now apply raises_Raise].
      intros C. apply E in C. discriminate.
Qed.

Lemma validate_title_spec_witness :
  returns (PyStr "Top 10") (validate_title (PyStr "Top 10") empty_db).
Proof.
  apply (proj1 (proj2 (validate_title_spec empty_db)) "Top 10").
  - simpl. discriminate.
  - exists "Top". split.
    + simpl. tauto.
    + exists "", " 10". reflexivity.
Defined.

(** ** [Post.validate_content] and [Post.validate_summary] *)

Lemma validate_content_run (v : pyval) (st : storage) :
  validate_content v st =
    match v with
    | PyNone => Run (Raise (ValueError "Post must have content.")) st []
    | PyStr s =>
        if String.length s <? 250 then
          Run (Raise (ValueError "Content must be at least 250 characters.")) st []
        else Run (Return v) st []
    end.
Proof.
  destruct v as [|s]; [reflexivity|].
  unfold validate_content, bind, lift, raise, ret. simpl.
  now destruct (String.length s <? 250).
Qed.

Lemma validate_summary_run (v : pyval) (st : storage) :
  validate_summary v st =
    match v with
    | PyNone => Run (Return PyNone) st []
    | PyStr s =>
        if 250 <? String.length s then
          Run (Raise (ValueError "Summary must be 250 characters or fewer.")) st []
        else Run (Return v) st []
    end.
Proof.
  destruct v as [|s]; [reflexivity|].
  unfold validate_summary, bind, lift, raise, ret. simpl.
  now destruct (250 <? String.length s).
Qed.

(** C5.  [validate_content] raises the required-field error on [None] (and
    no length error there); on a string it raises the length error exactly
    when the length is below 250, and returns every string of 250
    characters or more, however long.  249 characters fail, 250 pass. *)
Theorem validate_content_spec (st : storage) :
  raises RequiredFieldError (validate_content PyNone st) /\
  ~ raises LengthError (validate_content PyNone st) /\
  (forall s,
     (raises LengthError (validate_content (PyStr s) st) <->
      String.length s < 250) /\
     (250 <= String.length s ->
      returns (PyStr s) (validate_content (PyStr s) st))) /\
  raises LengthError (validate_content (PyStr (replicate 249 "a")) st) /\
  returns (PyStr (replicate 250 "a"))
          (validate_content (PyStr (replicate 250 "a")) st).
Proof.
  split; [by_evaluation|]. split.
  { rewrite validate_content_run, raises_Raise. discriminate. }
  split; [|split; by_evaluation].
  intros s. rewrite validate_content_run. unfold returns.
  destruct (String.length s <? 250) eqn:L.
  - apply Nat.ltb_lt in L. rewrite raises_Raise.
    split; [tauto | lia].
  - apply Nat.ltb_ge in L. split; [|reflexivity].
    split; [intros R; now apply raises_Return in R | lia].
Qed.

Lemma validate_content_spec_witness :
  returns (PyStr (replicate 300 "x"))
          (validate_content (PyStr (replicate 300 "x")) empty_db).
Proof.
  apply (proj1 (proj2 (proj2 (validate_content_spec empty_db)))).
  rewrite replicate_length. lia.
Defined.

(** C6.  [validate_summary] passes [None] through; on a string it raises
    the length error exactly when the length exceeds 250 and returns the
    string otherwise.  251 characters fail, 250 pass. *)
Theorem validate_summary_spec (st : storage) :
  returns PyNone (validate_summary PyNone st) /\
  (forall s,
     (raises LengthError (validate_summary (PyStr s) st) <->
      250 < String.length s) /\
     (returns (PyStr s) (validate_summary (PyStr s) st) <->
      String.length s <= 250)) /\
  raises LengthError (validate_summary (PyStr (replicate 251 "a")) st) /\
  returns (PyStr (replicate 250 "a"))
          (validate_summary (PyStr (replicate 250 "a")) st).
Proof.
  split; [by_evaluation|]. split; [|split; by_evaluation].
  intros s. rewrite validate_summary_run. unfold returns.
  destruct (250 <? String.length s) eqn:L.
  - apply Nat.ltb_lt in L. rewrite raises_Raise. split.
    + split; [tauto | reflexivity].
    + split; [discriminate | lia].
  - apply Nat.ltb_ge in L. split.
    + split; [intros R; now apply raises_Return in R | lia].
    + split; [tauto | reflexivity].
Qed.

(** ** [Post.validate_category] *)

(** C7.  [validate_category] returns its argument exactly when it is the
    string [Fiction] or the string [Non-Fiction], and raises the
    content-policy error on every other value, [fiction] and [None]
    among them. *)
Theorem validate_category_spec (v : pyval) (st : storage) :
  (returns v (validate_category v st) <->
   v = PyStr "Fiction" \/ v = PyStr "Non-Fiction") /\
  (raises ContentPolicyError (validate_category v st) <->
   ~ (v = PyStr "Fiction" \/ v = PyStr "Non-Fiction")) /\
  returns (PyStr "Fiction") (validate_category (PyStr "Fiction") st) /\
  returns (PyStr "Non-Fiction") (validate_category (PyStr "Non-Fiction") st) /\
  raises ContentPolicyError (validate_category (PyStr "fiction") st) /\
  raises ContentPolicyError (validate_category PyNone st).
Proof.
  assert (E : py_in_list v ALLOWED_CATEGORIES = true <->
              v = PyStr "Fiction" \/ v = PyStr "Non-Fiction").
  { unfold py_in_list, ALLOWED_CATEGORIES. cbn [existsb].
    rewrite orb_false_r, orb_true_iff.
    destruct v as [|s]; simpl.
    - split; [intros [H|H]; discriminate | intros [H|H]; discriminate].
    - rewrite !String.eqb_eq.
      split; (intros [H|H]; [left|right]); congruence. }
  split; [|split; [|repeat split; by_evaluation]].
  - unfold returns, validate_category, raise, ret.
    destruct (py_in_list v ALLOWED_CATEGORIES); simpl.
    + split; [intros _; now apply E | reflexivity].
    + split; [discriminate|]. intros H. apply E in H. discriminate.
  - unfold validate_category, raise, ret.
    destruct (py_in_list v ALLOWED_CATEGORIES); simpl.
    + split; [intros R; now apply raises_Return in R|].
      intros N. exfalso. now apply N, E.
    + rewrite raises_Raise. split; [|reflexivity].
      intros _ H. apply E in H. discriminate.
Qed.

(** ** All validators *)

(** The runs of the remaining validators, test by test. *)
Lemma validate_title_run (v : pyval) (st : storage) :
  validate_title v st =
    match v with
    | PyNone => Run (Raise (ValueError "Post must have a title.")) st []
    | PyStr s =>
        if String.eqb (strip s) "" then
          Run (Raise (ValueError "Post must have a title.")) st []
        else if existsb (fun phrase => str_contains phrase s) CLICKBAIT_PHRASES
        then Run (Return v) st []
        else Run (Raise (ValueError "Title must contain clickbait keywords.")) st []
    end.
Proof.
  destruct v as [|s]; [reflexivity|].
  destruct (String.eqb (strip s) "") eqn:B.
  - apply validate_title_blank. simpl. now apply String.eqb_eq.
  - apply validate_title_checked. simpl. now apply String.eqb_neq.
Qed.

Lemma validate_name_run (v : pyval) (st : storage) :
  validate_name v st =
    match v with
    | PyNone => Run (Raise (ValueError "Author must have a name.")) st []
    | PyStr s =>
        if String.eqb (strip s) "" then
          Run (Raise (ValueError "Author must have a name.")) st []
        else if existsb (String.eqb "authors") (table_names st) then
          match find (name_equals v) (author_rows st) with
          | Some _ =>
              Run (Raise (ValueError "Author name must be unique.")) st
                  [GetTableNames; QueryAuthorByName v]
          | None => Run (Return v) st [GetTableNames; QueryAuthorByName v]
          end
        else Run (Return v) st [GetTableNames]
    end.
Proof.
  destruct v as [|s]; [reflexivity|].
  destruct (String.eqb (strip s) "") eqn:B.
  - apply validate_name_blank. simpl. now apply String.eqb_eq.
  - apply validate_name_checked. simpl. now apply String.eqb_neq.
Qed.

Lemma validate_category_run (v : pyval) (st : storage) :
  validate_category v st =
    if py_in_list v ALLOWED_CATEGORIES then Run (Return v) st []
    else Run (Raise (ValueError "Category must be Fiction or Non-Fiction.")) st [].
Proof.
  unfold validate_category, raise, ret.
  now destruct (py_in_list v ALLOWED_CATEGORIES).
Qed.

(** Rewrites the run of whichever validator [f] is, then splits on every
    test the run goes through. *)
Ltac run_validator f v :=
  destruct f; cbn [validate];
  [ rewrite validate_name_run
  | rewrite validate_phone_number_run
  | rewrite validate_title_run
  | rewrite validate_content_run
  | rewrite validate_summary_run
  | rewrite validate_category_run ];
  try destruct v;
  repeat match goal with
         | |- context [if ?b then _ else _] => destruct b
         | |- context [match find ?p ?l with _ => _ end] => destruct (find p l)
         end.

(** A validator that accepts a value returns that very value. *)
Lemma validate_returns_input (f : validator) (v w : pyval) (st : storage) :
  returns w (validate f v st) -> w = v.
Proof.
  unfold returns. run_validator f v; simpl; intros H;
    first [discriminate | now injection H].
Qed.

(** Only [validate_name] calls the storage. *)
Lemma validate_calls (f : validator) (v : pyval) (st : storage) :
  f <> AuthorName -> calls (validate f v st) = [].
Proof. intros N. run_validator f v; first [reflexivity | now elim N]. Qed.

(** C8, on the code.  The query of [validate_name] filters on the name
    alone and never sets the record being validated apart.  [Ann] is
    accepted while no Author carries the name and refused once that Author
    is stored; and in every storage that lists the [authors] table,
    validating again the non-blank name of a stored Author raises the
    uniqueness error instead of returning the name. *)
Theorem revalidating_stored_name_raises :
  (returns (PyStr "Ann") (validate_name (PyStr "Ann") empty_db) /\
   In ann (author_rows db_with_ann) /\
   raises UniquenessError (validate_name (PyStr (name ann)) db_with_ann)) /\
  (forall st a,
     table_exists "authors" st -> In a (author_rows st) ->
     ~ null_or_blank (PyStr (name a)) ->
     raises UniquenessError (validate_name (PyStr (name a)) st) /\
     ~ returns (PyStr (name a)) (validate_name (PyStr (name a)) st)).
Proof.
  split.
  - split; [reflexivity|]. split; [now left | by_evaluation].
  - intros st a Ht Ha Hb.
    assert (R : raises UniquenessError (validate_name (PyStr (name a)) st)).
    { apply validate_name_raises_unique.
      split; [exact Hb|]. split; [exact Ht | now exists a]. }
    split; [exact R|].
    destruct R as (e & He & _). unfold returns. rewrite He. discriminate.
Qed.

Lemma revalidating_stored_name_raises_witness :
  raises UniquenessError (validate_name (PyStr "Ann") db_with_ann) /\
  ~ returns (PyStr "Ann") (validate_name (PyStr "Ann") db_with_ann).
Proof.
  apply (proj2 revalidating_stored_name_raises db_with_ann ann).
  - now left.
  - now left.
  - simpl. discriminate.
Defined.

(** C9.  Whatever validator fails, on whatever value and storage, the
    exception is a [ValueError]; its category is the one listed for its
    message in [ERROR_MESSAGES], so two failures never differ in class,
    only in message.  Each of the five categories is raised by some
    validator. *)
Theorem failures_are_ValueError (f : validator) (v : pyval) (st : storage)
        (e : exn) :
  outcome (validate f v st) = Raise e ->
  exc_class e = "ValueError" /\
  (exists c, In (exc_msg e, c) ERROR_MESSAGES /\ category e = Some c) /\
  (forall f' v' st' e', outcome (validate f' v' st') = Raise e' ->
                        exc_class e' = exc_class e) /\
  (forall c, exists f' v' st', raises c (validate f' v' st')).
Proof.
  assert (G : forall f v st e, outcome (validate f v st) = Raise e ->
                exc_class e = "ValueError" /\
                exists c, In (exc_msg e, c) ERROR_MESSAGES /\ category e = Some c).
  { clear. intros f v st e.
    run_validator f v; simpl; intros H;
      first [discriminate | injection H as <-];
      (split; [reflexivity|]); eexists; (split; [|reflexivity]);
      simpl; tauto. }
  intros H. destruct (G f v st e H) as [Hc Hm].
  split; [exact Hc|]. split; [exact Hm|]. split.
  - intros f' v' st' e' H'. rewrite Hc. apply (G f' v' st' e' H').
  - intros [].
    + exists AuthorName, PyNone, empty_db. by_evaluation.
    + exists AuthorPhoneNumber, (PyStr "555"), empty_db. by_evaluation.
    + exists PostContent, (PyStr ""), empty_db. by_evaluation.
    + exists PostCategory, PyNone, empty_db. by_evaluation.
    + exists AuthorName, (PyStr "Ann"), db_with_ann. by_evaluation.
Qed.

Lemma failures_are_ValueError_witness :
  exc_class (ValueError "Category must be Fiction or Non-Fiction.") = "ValueError".
Proof.
  apply (failures_are_ValueError PostCategory PyNone empty_db). reflexivity.
Defined.

(** C10.  [validate_summary] never raises the required-field error; every
    string of at most 250 characters is returned unchanged, the empty
    string and the strings made of whitespace only among them. *)
Theorem validate_summary_no_blank_check (st : storage) :
  (forall v, ~ raises RequiredFieldError (validate_summary v st)) /\
  (forall s, String.length s <= 250 ->
             validate_summary (PyStr s) st = Run (Return (PyStr s)) st []) /\
  returns (PyStr "") (validate_summary (PyStr "") st) /\
  (forall s, forall_chars isspace_char s = true -> String.length s <= 250 ->
             null_or_blank (PyStr s) /\
             returns (PyStr s) (validate_summary (PyStr s) st)).
Proof.
  assert (G : forall s, String.length s <= 250 ->
                validate_summary (PyStr s) st = Run (Return (PyStr s)) st []).
  { intros s L. rewrite validate_summary_run.
    apply Nat.ltb_ge in L. now rewrite L. }
  split; [|split; [exact G | split; [reflexivity|]]].
  - intros v. rewrite validate_summary_run. destruct v as [|s].
    + apply raises_Return.
    + destruct (250 <? String.length s);
        [rewrite raises_Raise; discriminate | apply raises_Return].
  - intros s W L. split.
    + now apply strip_empty.
    + unfold returns. now rewrite (G s L).
Qed.

Lemma validate_summary_no_blank_check_witness :
  returns (PyStr "   ") (validate_summary (PyStr "   ") empty_db).
Proof.
  apply (proj2 (proj2 (proj2 (validate_summary_no_blank_check empty_db))) "   ").
  - reflexivity.
  - simpl. lia.
Defined.

(** * Further properties of the module *)

(** ** More on strings *)

Lemma append_assoc (a b c : string) :
  ((a ++ b) ++ c = a ++ (b ++ c))%string.
Proof. induction a as [|x a IH]; simpl; [reflexivity | now rewrite IH]. Qed.

Lemma append_empty_r (a : string) : (a ++ "")%string = a.
Proof. induction a as [|x a IH]; simpl; [reflexivity | now rewrite IH]. Qed.

Lemma length_append (a b : string) :
  String.length (a ++ b) = String.length a + String.length b.
Proof. induction a as [|x a IH]; simpl; [reflexivity | now rewrite IH]. Qed.

Lemma append_cancel_l (a b c : string) :
  (a ++ b = a ++ c)%string -> b = c.
Proof.
  induction a as [|x a IH]; simpl; intros H; [exact H|].
  injection H as H. now apply IH.
Qed.

Lemma forall_chars_append (p : ascii -> bool) (a b : string) :
  forall_chars p (a ++ b) = forall_chars p a && forall_chars p b.
Proof.
  induction a as [|x a IH]; simpl; [reflexivity|].
  now rewrite IH, andb_assoc.
Qed.

Lemma substring_of_trans (a b c : string) :
  substring_of a b -> substring_of b c -> substring_of a c.
Proof.
  intros (p & q & ->) (p' & q' & ->).
  exists (p' ++ p)%string, (q ++ q')%string.
  now rewrite !append_assoc.
Qed.

(** A string in which one of the clickbait phrases occurs is not blank. *)
Lemma clickbait_not_blank (phrase s : string) :
  In phrase CLICKBAIT_PHRASES -> substring_of phrase s ->
  String.eqb (strip s) "" = false.
Proof.
  intros Hp (a & b & ->). apply String.eqb_neq. intros E.
  apply strip_empty in E.
  rewrite !forall_chars_append in E.
  apply andb_true_iff in E. destruct E as [_ E].
  apply andb_true_iff in E. destruct E as [E _].
  simpl in Hp. destruct Hp as [<-|[<-|[<-|[<-|[]]]]]; discriminate.
Qed.

(** ** What [validate_name] asks of the storage *)

(** X1.  A [None] or blank name is rejected before the storage is
    consulted at all.  Any other name makes [validate_name] read the table
    names once, and then issue exactly one query, for the value as given,
    when the [authors] table is listed, and none when it is not. *)
Theorem validate_name_storage_calls (v : pyval) (st : storage) :
  (null_or_blank v -> calls (validate_name v st) = []) /\
  (~ null_or_blank v -> table_exists "authors" st ->
   calls (validate_name v st) = [GetTableNames; QueryAuthorByName v]) /\
  (~ null_or_blank v -> ~ table_exists "authors" st ->
   calls (validate_name v st) = [GetTableNames]).
Proof.
  unfold table_exists. repeat split.
  - intros H. now rewrite (validate_name_blank v st H).
  - intros H T. apply existsb_eqb_In in T.
    rewrite (validate_name_checked v st H), T.
    now destruct (find _ (author_rows st)).
  - intros H T. rewrite <- existsb_eqb_In in T. apply not_true_is_false in T.
    now rewrite (validate_name_checked v st H), T.
Qed.

Lemma validate_name_storage_calls_witness :
  calls (validate_name (PyStr "  ") db_with_ann) = [] /\
  calls (validate_name (PyStr "Ann") db_with_ann)
  = [GetTableNames; QueryAuthorByName (PyStr "Ann")] /\
  calls (validate_name (PyStr "Ann") db_without_tables) = [GetTableNames].
Proof.
  split; [|split].
  - apply (proj1 (validate_name_storage_calls (PyStr "  ") db_with_ann)).
    reflexivity.
  - apply (proj1 (proj2 (validate_name_storage_calls (PyStr "Ann") db_with_ann))).
    + simpl. discriminate.
    + now left.
  - apply (proj2 (proj2 (validate_name_storage_calls (PyStr "Ann")
                                                     db_without_tables))).
    + simpl. discriminate.
    + simpl. tauto.
Defined.

(** X2.  The required check of [validate_name] and of [validate_title]
    rejects a string exactly when every one of its characters is
    whitespace (the empty string included). *)
Theorem required_iff_whitespace (s : string) (st : storage) :
  (raises RequiredFieldError (validate_name (PyStr s) st) <->
   forall_chars isspace_char s = true) /\
  (raises RequiredFieldError (validate_title (PyStr s) st) <->
   forall_chars isspace_char s = true).
Proof.
  rewrite <- strip_empty, <- String.eqb_eq. split.
  - rewrite validate_name_run.
    destruct (String.eqb (strip s) ""); [now rewrite raises_Raise|].
    split; [|discriminate]. intros R. exfalso. revert R.
    destruct (existsb _ (table_names st)); [|apply raises_Return].
    destruct (find _ (author_rows st));
      [rewrite raises_Raise; discriminate | apply raises_Return].
  - rewrite validate_title_run.
    destruct (String.eqb (strip s) ""); [now rewrite raises_Raise|].
    split; [|discriminate]. intros R. exfalso. revert R.
    destruct (existsb _ CLICKBAIT_PHRASES);
      [apply raises_Return | rewrite raises_Raise; discriminate].
Qed.

(** X3.  The verdict of [validate_name] depends on the storage only through
    the presence of the [authors] table and the set of stored names: ids,
    phone numbers, the order of the rows and the other tables play no
    part. *)
Theorem validate_name_depends_on_names (v : pyval) (st st' : storage) :
  (table_exists "authors" st <-> table_exists "authors" st') ->
  (forall s, author_named (PyStr s) st <-> author_named (PyStr s) st') ->
  outcome (validate_name v st) = outcome (validate_name v st').
Proof.
  unfold table_exists, author_named. intros T N.
  rewrite !validate_name_run. destruct v as [|s]; [reflexivity|].
  destruct (String.eqb (strip s) ""); [reflexivity|].
  rewrite <- !existsb_eqb_In in T.
  specialize (N s). rewrite <- !find_name_equals in N.
  destruct (existsb _ (table_names st)), (existsb _ (table_names st'));
    try (destruct T as [T1 T2]; first [now discriminate T1 | now discriminate T2]).
  - destruct (find _ (author_rows st)) as [a|], (find _ (author_rows st')) as [b|];
      try reflexivity; exfalso.
    + destruct (proj1 N (ex_intro _ a eq_refl)). discriminate.
    + destruct (proj2 N (ex_intro _ b eq_refl)). discriminate.
  - reflexivity.
Qed.

Lemma validate_name_depends_on_names_witness :
  outcome (validate_name (PyStr "Ann") db_with_ann)
  = outcome (validate_name (PyStr "Ann")
               (mkStorage ["authors"] [mkAuthor 7 "Ann" (Some "5551234567"); ann])).
Proof.
  apply validate_name_depends_on_names.
  - split; intros _; now left.
  - intros s. split.
    + intros (a & [<-|[]] & H). exists ann. split; [right; now left | exact H].
    + intros (a & [<-|[<-|[]]] & H); exists ann; (split; [now left | exact H]).
Defined.

(** X4.  The uniqueness lookup compares the value as given, not its
    stripped form.  When every stored Author is named [s], a value that
    wraps [s] in further characters (a trailing space, say) is accepted
    and returned with them. *)
Theorem validate_name_near_duplicate (s before after : string) (st : storage) :
  ~ null_or_blank (PyStr s) ->
  (before ++ after)%string <> "" ->
  (forall a, In a (author_rows st) -> name a = s) ->
  returns (PyStr (before ++ s ++ after))
          (validate_name (PyStr (before ++ s ++ after)) st).
Proof.
  intros B P U. unfold returns. rewrite validate_name_run.
  assert (NB : String.eqb (strip (before ++ s ++ after)) "" = false).
  { apply String.eqb_neq. intros E. apply B. simpl.
    apply strip_empty in E. apply strip_empty.
    rewrite !forall_chars_append in E.
    apply andb_true_iff in E. destruct E as [_ E].
    now apply andb_true_iff in E. }
  rewrite NB.
  destruct (existsb _ (table_names st)); [|reflexivity].
  destruct (find _ (author_rows st)) as [a|] eqn:F; [|reflexivity].
  exfalso. apply find_some in F. destruct F as [Ha Hn].
  simpl in Hn. apply String.eqb_eq in Hn. rewrite (U a Ha) in Hn.
  apply P. apply (f_equal String.length) in Hn.
  rewrite !length_append in Hn.
  destruct before, after; simpl in *; try reflexivity; lia.
Qed.

Lemma validate_name_near_duplicate_witness :
  returns (PyStr "Ann ") (validate_name (PyStr "Ann ") db_with_ann).
Proof.
  apply (validate_name_near_duplicate "Ann" "" " " db_with_ann).
  - simpl. discriminate.
  - simpl. discriminate.
  - intros a [<-|[]]. reflexivity.
Defined.

(** ** Which message [validate_phone_number] gives *)

(** X5.  The length is tested before the characters.  A string gets the
    length message exactly when it does not have ten characters, whatever
    they are (the empty string included), and the digits message exactly
    when it has ten characters of which one is not a digit. *)
Theorem validate_phone_number_messages (s : string) (st : storage) :
  (outcome (validate_phone_number (PyStr s) st)
   = Raise (ValueError "Phone number must be exactly 10 digits.") <->
   String.length s <> 10) /\
  (outcome (validate_phone_number (PyStr s) st)
   = Raise (ValueError "Phone number must contain digits only.") <->
   String.length s = 10 /\ forall_chars isdigit_char s = false).
Proof.
  rewrite validate_phone_number_run.
  destruct (String.length s =? 10) eqn:L.
  - apply Nat.eqb_eq in L.
    destruct (forall_chars isdigit_char s); simpl; split; split; intros H;
      first [ discriminate H | now elim H | now destruct H | now split ].
  - apply Nat.eqb_neq in L. simpl. split; split; intros H;
      first [ discriminate H | exact L | reflexivity | now destruct H ].
Qed.

(** ** All validators *)

(** X6.  A validator that accepts a value returns the very value it was
    given: nothing is trimmed, padded or re-cased.  [None] is accepted by
    the validators of the two optional columns, [phone_number] and
    [summary], and by no other. *)
Theorem accepted_value_is_input (f : validator) (v w : pyval) (st : storage) :
  returns w (validate f v st) ->
  w = v /\ (v = PyNone -> f = AuthorPhoneNumber \/ f = PostSummary).
Proof.
  intros H. split; [exact (validate_returns_input f v w st H)|].
  intros ->. revert H. unfold returns.
  destruct f; cbn [validate]; try (intros _; tauto);
    [ rewrite validate_name_run | rewrite validate_title_run
    | rewrite validate_content_run | rewrite validate_category_run ];
    simpl; discriminate.
Qed.

Lemma accepted_value_is_input_witness :
  PyStr "0005551234" = PyStr "0005551234" /\
  (PyStr "0005551234" = PyNone -> AuthorPhoneNumber = AuthorPhoneNumber \/
                                  AuthorPhoneNumber = PostSummary).
Proof.
  apply (accepted_value_is_input AuthorPhoneNumber (PyStr "0005551234")
                                 (PyStr "0005551234") empty_db).
  reflexivity.
Defined.

(** ** [Post.validate_title] *)

(** X7.  [validate_title] accepts exactly the strings in which one of the
    clickbait phrases occurs: such a string is never blank, so the
    required check adds no condition of its own, and no word boundary is
    asked for around the phrase. *)
Theorem validate_title_accepts (v : pyval) (st : storage) :
  returns v (validate_title v st) <->
  exists s phrase,
    v = PyStr s /\ In phrase CLICKBAIT_PHRASES /\ substring_of phrase s.
Proof.
  unfold returns. rewrite validate_title_run. destruct v as [|s].
  - split; [discriminate | intros (s & p & H & _); discriminate].
  - destruct (existsb (fun phrase => str_contains phrase s) CLICKBAIT_PHRASES)
      eqn:E.
    + apply existsb_exists in E. destruct E as (p & Hp & Hs).
      apply str_contains_spec in Hs.
      rewrite (clickbait_not_blank p s Hp Hs).
      split; [intros _; now exists s, p | reflexivity].
    + assert (N : ~ exists s0 phrase, PyStr s = PyStr s0 /\
                    In phrase CLICKBAIT_PHRASES /\ substring_of phrase s0).
      { intros (s0 & p & [= <-] & Hp & Hs).
        apply str_contains_spec in Hs.
        assert (X : existsb (fun phrase => str_contains phrase s)
                      CLICKBAIT_PHRASES = true)
          by (apply existsb_exists; now exists p).
        congruence. }
      destruct (String.eqb (strip s) ""); split;
        first [discriminate | intros H; now elim N].
Qed.

(** X8.  Matching is exact on case down to the first letter of each
    phrase: a title in which none of the capitals W, S, T and G occurs is
    rejected, whatever else it holds. *)
Theorem validate_title_needs_capital (s : string) (st : storage) :
  str_contains "W" s = false -> str_contains "S" s = false ->
  str_contains "T" s = false -> str_contains "G" s = false ->
  exists e, outcome (validate_title (PyStr s) st) = Raise e.
Proof.
  intros HW HS HT HG.
  assert (E : existsb (fun phrase => str_contains phrase s) CLICKBAIT_PHRASES
              = false).
  { apply not_true_is_false. intros E.
    apply existsb_exists in E. destruct E as (p & Hp & Hs).
    apply str_contains_spec in Hs.
    assert (C : forall c rest, p = String c rest ->
                               str_contains (String c "") s = true).
    { intros c rest ->. apply str_contains_spec.
      apply (substring_of_trans _ (String c rest)); [|exact Hs].
      exists "", rest. reflexivity. }
    simpl in Hp. destruct Hp as [<-|[<-|[<-|[<-|[]]]]];
      specialize (C _ _ eq_refl); congruence. }
  rewrite validate_title_run, E.
  destruct (String.eqb (strip s) ""); eexists; reflexivity.
Qed.

Lemma validate_title_needs_capital_witness :
  exists e, outcome (validate_title (PyStr "top secret guess") empty_db) = Raise e.
Proof.
  apply (validate_title_needs_capital "top secret guess" empty_db); reflexivity.
Defined.

(** ** [Post.validate_content] against its neighbours *)

(** X9.  Every string is accepted by [validate_content] or by
    [validate_summary]; the strings accepted by both are those of exactly
    250 characters. *)
Theorem content_or_summary (s : string) (st : storage) :
  (returns (PyStr s) (validate_content (PyStr s) st) \/
   returns (PyStr s) (validate_summary (PyStr s) st)) /\
  (returns (PyStr s) (validate_content (PyStr s) st) /\
   returns (PyStr s) (validate_summary (PyStr s) st) <->
   String.length s = 250).
Proof.
  unfold returns. rewrite validate_content_run, validate_summary_run.
  destruct (Nat.ltb_spec (String.length s) 250) as [C|C],
           (Nat.ltb_spec 250 (String.length s)) as [S|S].
  - lia.
  - split; [now right|]. split; [intros [H _]; discriminate | lia].
  - split; [now left|]. split; [intros [_ H]; discriminate | lia].
  - split; [now left|]. split; [lia | now split].
Qed.

(** X10.  [validate_content] has no blank check: a string of 250 or more
    whitespace characters is accepted as content, while the same string
    is refused as a title for being blank. *)
Theorem validate_content_accepts_blank (s : string) (st : storage) :
  forall_chars isspace_char s = true -> 250 <= String.length s ->
  returns (PyStr s) (validate_content (PyStr s) st) /\
  raises RequiredFieldError (validate_title (PyStr s) st).
Proof.
  intros W L. split.
  - unfold returns. rewrite validate_content_run.
    apply Nat.ltb_ge in L. now rewrite L.
  - apply strip_empty in W. rewrite (validate_title_blank (PyStr s) st W).
    now apply raises_Raise.
Qed.

Lemma validate_content_accepts_blank_witness :
  returns (PyStr (replicate 250 " "))
          (validate_content (PyStr (replicate 250 " ")) empty_db) /\
  raises RequiredFieldError (validate_title (PyStr (replicate 250 " ")) empty_db).
Proof.
  apply (validate_content_accepts_blank (replicate 250 " ") empty_db).
  - reflexivity.
  - rewrite replicate_length. lia.
Defined.

(** ** [__repr__] *)

Lemma append_cancel_r (a b c : string) :
  (a ++ c = b ++ c)%string -> a = b.
Proof.
  revert b. induction a as [|x a IH]; intros [|y b]; simpl; intros H.
  - reflexivity.
  - exfalso. apply (f_equal String.length) in H.
    simpl in H. rewrite length_append in H. lia.
  - exfalso. apply (f_equal String.length) in H.
    simpl in H. rewrite length_append in H. lia.
  - injection H as -> H. now rewrite (IH b H).
Qed.

Lemma string_of_uint_digits (d : uint) :
  forall_chars is_ascii_digit (NilEmpty.string_of_uint d) = true.
Proof. induction d; simpl; auto. Qed.

Lemma py_str_int_inj (n m : nat) : py_str_int n = py_str_int m -> n = m.
Proof.
  unfold py_str_int. intros H.
  apply (f_equal NilEmpty.uint_of_string) in H.
  rewrite !NilEmpty.usu in H. injection H as H.
  now apply Unsigned.to_uint_inj.
Qed.

(** Two digit strings followed by a comma and anything are equal only
    part by part. *)
Lemma digits_comma_split (d1 d2 r1 r2 : string) :
  forall_chars is_ascii_digit d1 = true ->
  forall_chars is_ascii_digit d2 = true ->
  (d1 ++ String "," r1 = d2 ++ String "," r2)%string ->
  d1 = d2 /\ r1 = r2.
Proof.
  revert d2. induction d1 as [|x d1 IH]; intros [|y d2]; simpl; intros D1 D2 H.
  - injection H as H. now split.
  - injection H as <- _. discriminate.
  - injection H as -> _. discriminate.
  - injection H as -> H.
    apply andb_true_iff in D1. apply andb_true_iff in D2.
    destruct (IH d2 (proj2 D1) (proj2 D2) H) as [-> ->]. now split.
Qed.

(** Both texts open with [Name(id=<digits>,]: they give the id back. *)
Lemma repr_id_inj (tag : string) (n m : nat) (r1 r2 : string) :
  (tag ++ py_str_int n ++ String "," r1
   = tag ++ py_str_int m ++ String "," r2)%string ->
  n = m /\ r1 = r2.
Proof.
  intros H. apply append_cancel_l in H.
  apply digits_comma_split in H; try apply string_of_uint_digits.
  destruct H as [H ->]. split; [now apply py_str_int_inj | reflexivity].
Qed.

(** X11.  [Author.__repr__] tells two stored Authors apart exactly when
    they differ in id or in name; the phone number never shows.  Its text
    is never the text of a Post. *)
Theorem Author_repr_identifies (a b : Author) (p : Post) :
  (Author_repr a = Author_repr b <-> id a = id b /\ name a = name b) /\
  Author_repr a <> Post_repr p.
Proof.
  split; [|discriminate]. unfold Author_repr. split.
  - intros H. apply (repr_id_inj "Author(id=") in H.
    destruct H as [Hid H]. split; [exact Hid|].
    apply (append_cancel_l " name=") in H.
    now apply append_cancel_r in H.
  - intros [-> ->]. reflexivity.
Qed.

(** X12.  [Post.__repr__] gives the id back, but neither the category,
    which it leaves out, nor the title and the content, which it joins
    with the bare text [ content=]: moving that text between the two
    fields yields the same output. *)
Theorem Post_repr_ambiguous :
  (forall p q, Post_repr p = Post_repr q -> post_id p = post_id q) /\
  (forall i t c1 c2 cat cat' sm,
     Post_repr (mkPost i t (PyStr (c1 ++ " content=" ++ c2)) cat sm)
     = Post_repr (mkPost i (t ++ " content=" ++ c1) (PyStr c2) cat' sm)).
Proof.
  split.
  - intros p q H. unfold Post_repr in H.
    now apply (repr_id_inj "Post(id=") in H.
  - intros. unfold Post_repr. cbn [post_id title content summary py_str].
    now rewrite !append_assoc.
Qed.

Lemma Post_repr_ambiguous_witness :
  post_id (mkPost 3 "Top" (PyStr "a content=b") (PyStr "Fiction") PyNone)
  = post_id (mkPost 3 "Top content=a" (PyStr "b") PyNone PyNone).
Proof.
  apply (proj1 Post_repr_ambiguous). reflexivity.
Defined.
